(** * Multi-tenant isolation: a model of [src/tenants/isolation.py]

    The development follows the module top to bottom: the plan catalogue and
    the [Tenant] read-model, the context variable holding the current tenant
    with its scoped setter [tenant_context], [require_tenant], the
    tenant-aware query filter and the ASGI middleware that resolves a tenant
    from a request.  Python integers are [Z], [str] and [bytes] values are
    [string]s, [dict]s are [gmap]s, and code that reads or writes the context
    variable or raises is written in a small state-and-exception monad. *)

From Stdlib Require Import ZArith String Ascii List Bool Lia.
From stdpp Require Import base option list gmap strings countable relations.
Import ListNotations.

Local Open Scope string_scope.

(** ** Plans and tenants (lines 18-89) *)

Module Plans.

(** [class TenantPlan(str, Enum)]: a closed enumeration whose members carry
    a string value. *)
Inductive TenantPlan := FREE | STARTER | PROFESSIONAL | ENTERPRISE.

Definition value (p : TenantPlan) : string :=
  match p with
  | FREE => "free"
  | STARTER => "starter"
  | PROFESSIONAL => "professional"
  | ENTERPRISE => "enterprise"
  end.

Definition of_value (s : string) : option TenantPlan :=
  if String.eqb s "free" then Some FREE
  else if String.eqb s "starter" then Some STARTER
  else if String.eqb s "professional" then Some PROFESSIONAL
  else if String.eqb s "enterprise" then Some ENTERPRISE
  else None.

#[global] Instance TenantPlan_eq_dec : EqDecision TenantPlan.
Proof. solve_decision. Defined.

#[global] Instance TenantPlan_countable : Countable TenantPlan.
Proof.
  apply (inj_countable value of_value).
  intros []; reflexivity.
Defined.

(** [@dataclass class PlanLimits]; [-1] stands for "unlimited". *)
Record PlanLimits := mkPlanLimits {
  max_users : Z;
  max_storage_gb : Z;
  max_api_calls_per_day : Z;
  features : list string
}.

(** The module-level dictionary [PLAN_LIMITS], built entry by entry in the
    order of the literal. *)
Definition PLAN_LIMITS : gmap TenantPlan PlanLimits :=
  <[ENTERPRISE := mkPlanLimits (-1) (-1) (-1)
      ["basic_reports"; "api_access"; "email_support"; "advanced_analytics";
       "integrations"; "sso"; "audit_logs"; "sla"]]>
  (<[PROFESSIONAL := mkPlanLimits 50 100 100000
      ["basic_reports"; "api_access"; "email_support"; "advanced_analytics";
       "integrations"]]>
  (<[STARTER := mkPlanLimits 10 10 10000
      ["basic_reports"; "api_access"; "email_support"]]>
  (<[FREE := mkPlanLimits 3 1 1000 ["basic_reports"]]> ∅))).

(** [@dataclass class Tenant].  [created_at] is a timestamp, kept as an
    integer; [settings] maps names to values the module never inspects. *)
Record Tenant := mkTenant {
  id : string;
  name : string;
  slug : string;
  plan : TenantPlan;
  is_active : bool;
  created_at : Z;
  settings : gmap string string
}.

(** The property [Tenant.limits]: [PLAN_LIMITS[self.plan]].  A missing key
    would raise [KeyError]; that is the [None] here. *)
Definition limits (t : Tenant) : option PlanLimits :=
  PLAN_LIMITS !! plan t.

(** [Tenant.has_feature]: [feature in self.limits.features]. *)
Definition has_feature (t : Tenant) (feature : string) : option bool :=
  l ← limits t; Some (bool_decide (feature ∈ features l)).

(** [Tenant.can_add_user]:
    [max_users == -1 or current_count < max_users]. *)
Definition can_add_user (t : Tenant) (current_count : Z) : option bool :=
  l ← limits t;
  let max_users := max_users l in
  Some ((max_users =? -1)%Z || (current_count <? max_users)%Z).

End Plans.

Import Plans.

(** ** The current-tenant context variable (lines 15, 92-130) *)

Module Ctx.

(** Exceptions the module raises or lets through. *)
Inductive exn :=
| ValueError (msg : string)
| UnicodeDecodeError
| CancelledError
| OtherError (name : string).

Inductive outcome (A : Type) :=
| Returned (a : A)
| Raised (e : exn).
Arguments Returned {A} a.
Arguments Raised {A} e.

(** What the running task's context holds for [current_tenant_var]: [None]
    while the variable was never set there, [Some v] once [set(v)] ran
    ([v] itself is an [Optional[str]]). *)
Definition Context := option (option string).

(** [ContextVar("current_tenant", default=None)]. *)
Definition current_tenant_default : option string := None.

Definition var_get (c : Context) : option string :=
  match c with
  | Some v => v
  | None => current_tenant_default
  end.

Definition var_set (v : option string) (c : Context) : Context := Some v.

(** Code that reads and writes the context and may raise.  The context
    survives an exception, as it does in Python. *)
Definition M (A : Type) := Context -> outcome A * Context.

Definition ret {A} (a : A) : M A := fun c => (Returned a, c).

Definition raise {A} (e : exn) : M A := fun c => (Raised e, c).

Definition bind {A B} (m : M A) (k : A -> M B) : M B :=
  fun c =>
    match m c with
    | (Returned a, c') => k a c'
    | (Raised e, c') => (Raised e, c')
    end.

(** [try: m finally: fin].  The [finally] block runs on both exits; an
    exception raised by the block itself replaces the pending outcome. *)
Definition try_finally {A} (m : M A) (fin : M unit) : M A :=
  fun c =>
    match m c with
    | (r, c') =>
        match fin c' with
        | (Returned _, c'') => (r, c'')
        | (Raised e, c'') => (Raised e, c'')
        end
    end.

Declare Scope py_scope.
Delimit Scope py_scope with py.
Notation "'do' x <- m ;; k" := (bind m (fun x => k))
  (at level 10, x name, m at level 99, k at level 200) : py_scope.
Notation "'exec' m ;; k" := (bind m (fun _ => k))
  (at level 10, m at level 99, k at level 200) : py_scope.
Local Open Scope py_scope.

Definition result {A} (r : outcome A * Context) : outcome A := fst r.
Definition final {A} (r : outcome A * Context) : Context := snd r.

(** [def get_current_tenant()]: [current_tenant_var.get()]. *)
Definition get_current_tenant : M (option string) :=
  fun c => (Returned (var_get c), c).

(** [def set_current_tenant(tenant_id)]: [current_tenant_var.set(tenant_id)];
    the token that [set] returns is dropped. *)
Definition set_current_tenant (tenant_id : option string) : M unit :=
  fun c => (Returned tt, var_set tenant_id c).

(** [with tenant_context(tenant_id) as x: body x].  The generator runs up to
    its [yield] on entry; the body's outcome, normal or exceptional, resumes
    it, so the [finally] clause runs on every exit. *)
Definition tenant_context {A} (tenant_id : string) (body : string -> M A) : M A :=
  do previous <- get_current_tenant ;;
  exec set_current_tenant (Some tenant_id) ;;
  try_finally (body tenant_id) (set_current_tenant previous).

(** Python truthiness of an [Optional[str]]: [None] and [""] are false. *)
Definition truthy (v : option string) : bool :=
  match v with
  | None => false
  | Some "" => false
  | Some _ => true
  end.

(** [def require_tenant()].  When the test passes the value is a non-empty
    string; the [None] branch of the last match is the falsy case again. *)
Definition require_tenant : M string :=
  do tenant_id <- get_current_tenant ;;
  if negb (truthy tenant_id) then raise (ValueError "No tenant context set")
  else match tenant_id with
       | Some s => ret s
       | None => raise (ValueError "No tenant context set")
       end.

(** Scopes nested one inside the other, outermost first, around [inner]. *)
Fixpoint nested {A} (tenant_ids : list string) (inner : M A) : M A :=
  match tenant_ids with
  | [] => inner
  | t :: rest => tenant_context t (fun _ => nested rest inner)
  end.

End Ctx.

Import Ctx.
Local Open Scope py_scope.

(** ** Tenant-aware queries (lines 133-149) *)

Module Query.

(** A mapped column of an entity class, and the expression that
    [column == value] builds. *)
Record column := mkColumn { entity : string; attr : string }.

Inductive predicate :=
| ColumnEq (col : column) (value : string).

(** An entity class mixing in [TenantAwareQuery]; [cls.organization_id] is
    its tenant column. *)
Record EntityClass := mkEntity {
  cls_name : string;
  organization_id : column
}.

(** A row, as the values of its columns, and whether a predicate keeps it. *)
Definition row := column -> option string.

#[global] Instance column_eq_dec : EqDecision column.
Proof. solve_decision. Defined.

Definition holds (p : predicate) (r : row) : bool :=
  match p with
  | ColumnEq col v => bool_decide (r col = Some v)
  end.

(** [TenantAwareQuery.get_tenant_filter]. *)
Definition get_tenant_filter (cls : EntityClass) : M predicate :=
  do tenant_id <- require_tenant ;;
  ret (ColumnEq (organization_id cls) tenant_id).

(** A query is the conjunction of the filters applied so far. *)
Definition query := list predicate.

Definition filter_ (q : query) (p : predicate) : query := (q ++ [p])%list.

(** [TenantAwareQuery.for_tenant]. *)
Definition for_tenant (cls : EntityClass) (q : query) : M query :=
  do f <- get_tenant_filter cls ;;
  ret (filter_ q f).

End Query.

Import Query.

(** ** The ASGI middleware (lines 152-175) *)

Module Middleware.

(** *** Strings

    A [bytes] value is the [string] of its bytes, and a [str] is
    represented by its UTF-8 encoding, so that [encode] is the identity and
    [decode] is a validity check.  Emptiness, the test ["." in host] and
    [host.split(".")] read the same on the encoding as on the text, since
    the byte [0x2E] never occurs inside a multi-byte sequence. *)

Definition code (a : ascii) : Z := Z.of_N (N_of_ascii a).

Definition between (lo x hi : Z) : bool := ((lo <=? x) && (x <=? hi))%Z.

Definition continuation (a : ascii) : bool := between 128 (code a) 191.

(** The byte that may follow a three-byte lead: no overlong form after
    [0xE0], no surrogate after [0xED]. *)
Definition second_of_three (lead : Z) (a : ascii) : bool :=
  if (lead =? 224)%Z then between 160 (code a) 191
  else if (lead =? 237)%Z then between 128 (code a) 159
  else continuation a.

(** The byte that may follow a four-byte lead: no overlong form after
    [0xF0], nothing above U+10FFFF after [0xF4]. *)
Definition second_of_four (lead : Z) (a : ascii) : bool :=
  if (lead =? 240)%Z then between 144 (code a) 191
  else if (lead =? 244)%Z then between 128 (code a) 143
  else continuation a.

(** Well-formed UTF-8, as the strict codec of [bytes.decode()] accepts it. *)
Fixpoint valid_utf8 (b : string) : bool :=
  match b with
  | EmptyString => true
  | String a r =>
      let x := code a in
      if (x <? 128)%Z then valid_utf8 r
      else if between 194 x 223 then
        match r with
        | String a1 r1 => continuation a1 && valid_utf8 r1
        | _ => false
        end
      else if between 224 x 239 then
        match r with
        | String a1 (String a2 r2) =>
            second_of_three x a1 && continuation a2 && valid_utf8 r2
        | _ => false
        end
      else if between 240 x 244 then
        match r with
        | String a1 (String a2 (String a3 r3)) =>
            second_of_four x a1 && continuation a2 && continuation a3
            && valid_utf8 r3
        | _ => false
        end
      else false
  end.

(** [b.decode()]. *)
Definition decode (b : string) : outcome string :=
  if valid_utf8 b then Returned b else Raised UnicodeDecodeError.

(** [s.encode()]. *)
Definition encode (s : string) : string := s.

Definition lower_char (a : ascii) : ascii :=
  let n := code a in
  if between 65 n 90 then ascii_of_N (Z.to_N (n + 32)) else a.

(** [s.lower()] on ASCII text, which is what a header name consists of.
    [str.lower()] also maps letters outside ASCII; this function leaves
    their bytes alone, so it is [str.lower()] only where [ascii_only]
    holds. *)
Fixpoint lower (s : string) : string :=
  match s with
  | EmptyString => EmptyString
  | String a r => String (lower_char a) (lower r)
  end.

Definition ascii_only (s : string) : bool :=
  forallb (fun a => (code a <? 128)%Z) (list_ascii_of_string s).

(** [not s] for a [str] or [bytes] value. *)
Definition is_empty (s : string) : bool :=
  match s with
  | EmptyString => true
  | _ => false
  end.

(** [sep in s] for a one-character [sep]. *)
Fixpoint contains (sep : ascii) (s : string) : bool :=
  match s with
  | EmptyString => false
  | String a r => if Ascii.eqb a sep then true else contains sep r
  end.

(** [s.split(sep)] for a one-character [sep]: never an empty list. *)
Fixpoint split (sep : ascii) (s : string) : list string :=
  match s with
  | EmptyString => [EmptyString]
  | String a r =>
      if Ascii.eqb a sep then EmptyString :: split sep r
      else match split sep r with
           | h :: t => String a h :: t
           | [] => [String a EmptyString]
           end
  end.

(** *** The request *)

(** [dict(pairs)]: a later pair overrides an earlier one with the same key. *)
Definition dict (pairs : list (string * string)) : gmap string string :=
  foldl (fun m kv => <[fst kv := snd kv]> m) ∅ pairs.

(** [d.get(key, default)]. *)
Definition dict_get (d : gmap string string) (key dflt : string) : string :=
  match d !! key with
  | Some v => v
  | None => dflt
  end.

(** The ASGI connection scope: its ["type"] and, when present, its
    ["headers"], a list of name and value pairs of [bytes]. *)
Record Scope := mkScope {
  scope_type : string;
  scope_headers : option (list (string * string))
}.

(** An ASGI application.  [receive] and [send] are handed on untouched and
    left out. *)
Definition App := Scope -> M unit.

Record TenantMiddleware := mkTenantMiddleware {
  app : App;
  header_name : string
}.

(** [TenantMiddleware.__init__]. *)
Definition init (a : App) (name : string) : TenantMiddleware :=
  {| app := a; header_name := encode (lower name) |}.

Definition default_header_name : string := "X-Tenant-ID".

(** Lines 165-172 of [__call__]: the tenant taken from the header, or else
    from the host. *)
Definition extract_tenant (self : TenantMiddleware) (scope : Scope) : outcome string :=
  let headers :=
    dict (match scope_headers scope with Some l => l | None => [] end) in
  match decode (dict_get headers (header_name self) "") with
  | Raised e => Raised e
  | Returned tenant_id =>
      if is_empty tenant_id then
        match decode (dict_get headers "host" "") with
        | Raised e => Raised e
        | Returned host =>
            if negb (is_empty host) && contains "." host
            then Returned (hd EmptyString (split "." host))
            else Returned tenant_id
        end
      else Returned tenant_id
  end.

Definition lift {A} (o : outcome A) : M A := fun c => (o, c).

(** [TenantMiddleware.__call__]. *)
Definition call (self : TenantMiddleware) (scope : Scope) : M unit :=
  if negb (String.eqb (scope_type scope) "http") then app self scope
  else
    do tenant_id <- lift (extract_tenant self scope) ;;
    tenant_context tenant_id (fun _ => app self scope).

(** *** The resolution rule as the specification words it *)

Definition same_name (a b : string) : bool := String.eqb (lower a) (lower b).

(** The value of the header called [name], names compared without regard
    to case; of several such headers the last one counts. *)
Fixpoint header_ci (name : string) (hs : list (string * string)) : option string :=
  match hs with
  | [] => None
  | (k, v) :: rest =>
      match header_ci name rest with
      | Some v' => Some v'
      | None => if same_name k name then Some v else None
      end
  end.

(** The first dot-delimited label: what precedes the first dot. *)
Fixpoint before_dot (host : string) : string :=
  match host with
  | EmptyString => EmptyString
  | String a r => if Ascii.eqb a "." then EmptyString else String a (before_dot r)
  end.

(** Header first, else first label of a dotted host, else empty. *)
Definition resolved (name : string) (hs : list (string * string)) : string :=
  match header_ci name hs with
  | Some (String a v) => String a v
  | _ =>
      match header_ci "host" hs with
      | Some host => if contains "." host then before_dot host else EmptyString
      | None => EmptyString
      end
  end.

(** Header names as an ASGI server hands them over: lower-cased. *)
Definition asgi_names (hs : list (string * string)) : Prop :=
  Forall (fun kv => lower (fst kv) = fst kv) hs.

End Middleware.

Import Middleware.

(** ** The module's operations on the current-tenant slot *)

Module Api.

(** The public callables of the module that read or write the slot, with
    their arguments.  [A] is the result type of a scope's body. *)
Inductive operation (A : Type) :=
| Get_current_tenant
| Set_current_tenant (tenant_id : option string)
| Tenant_context (tenant_id : string) (body : string -> M A)
| Require_tenant
| Get_tenant_filter (cls : EntityClass)
| For_tenant (cls : EntityClass) (q : query).
Arguments Get_current_tenant {A}.
Arguments Set_current_tenant {A} tenant_id.
Arguments Tenant_context {A} tenant_id body.
Arguments Require_tenant {A}.
Arguments Get_tenant_filter {A} cls.
Arguments For_tenant {A} cls q.

(** The context an operation leaves behind. *)
Definition effect {A} (op : operation A) (c : Context) : Context :=
  match op with
  | Get_current_tenant => final (get_current_tenant c)
  | Set_current_tenant v => final (set_current_tenant v c)
  | Tenant_context tid body => final (tenant_context tid body c)
  | Require_tenant => final (require_tenant c)
  | Get_tenant_filter cls => final (get_tenant_filter cls c)
  | For_tenant cls q => final (for_tenant cls q c)
  end.

(** The scoped operations: enter a scope, read the current value, require
    it; everything but the raw setter. *)
Definition scoped {A} (op : operation A) : bool :=
  match op with
  | Set_current_tenant _ => false
  | _ => true
  end.

End Api.

(** ** Concurrent tasks

    A context variable lives in the context of the running task; every task
    (thread, or asyncio task) runs in a context of its own, a copy of its
    creator's.  A task runs the functions of the module on its own context,
    and its code is cut at the points where the scheduler may switch to
    another task, so that the two halves of [tenant_context], before and
    after its [yield], are separate steps. *)

Module Tasks.

(** What the body of a scope does between two switching points. *)
Inductive action :=
| Observe                           (* [get_current_tenant()], the value is logged *)
| Set_tenant (v : option string)    (* [set_current_tenant(v)] *)
| Await.                            (* a suspension point *)

Inductive instr :=
| Enter (tenant_id : string)        (* [with tenant_context(tenant_id):] up to its [yield] *)
| Leave                             (* its [finally] clause *)
| Act (a : action).

Record task := mkTask {
  context : Context;                (* this task's context *)
  saved : list (option string);     (* [previous] of each scope still open *)
  code : list instr;                (* what is left to run *)
  seen : list (option string)       (* the values observed so far *)
}.

Definition spawn (c : Context) (program : list instr) : task :=
  {| context := c; saved := []; code := program; seen := [] |}.

(** [tenant_context] up to its [yield], lines 112-113. *)
Definition enter (tenant_id : string) : M (option string) :=
  do previous <- get_current_tenant ;;
  exec set_current_tenant (Some tenant_id) ;;
  ret previous.

(** The [finally] clause of [tenant_context], line 117. *)
Definition leave (previous : option string) : M unit :=
  set_current_tenant previous.

(** An action, with the values it adds to the log. *)
Definition act (a : action) : M (list (option string)) :=
  match a with
  | Observe => do v <- get_current_tenant ;; ret [v]
  | Set_tenant v => exec set_current_tenant v ;; ret []
  | Await => ret []
  end.

(** A task that an exception has ended. *)
Definition crashed (c : Context) (t : task) : task :=
  {| context := c; saved := saved t; code := []; seen := seen t |}.

(** One instruction of a task: the module's function, run on that task's
    own context. *)
Definition exec_instr (i : instr) (rest : list instr) (t : task) : task :=
  match i with
  | Enter tenant_id =>
      match enter tenant_id (context t) with
      | (Returned previous, c) =>
          {| context := c; saved := previous :: saved t;
             code := rest; seen := seen t |}
      | (Raised _, c) => crashed c t
      end
  | Leave =>
      match saved t with
      | previous :: outer =>
          match leave previous (context t) with
          | (Returned _, c) =>
              {| context := c; saved := outer; code := rest; seen := seen t |}
          | (Raised _, c) => crashed c t
          end
      | [] =>
          {| context := context t; saved := []; code := rest; seen := seen t |}
      end
  | Act a =>
      match act a (context t) with
      | (Returned vs, c) =>
          {| context := c; saved := saved t; code := rest;
             seen := (seen t ++ vs)%list |}
      | (Raised _, c) => crashed c t
      end
  end.

(** The scheduler lets task [k] run up to its next switching point. *)
Definition step_task (k : nat) (pool : gmap nat task) : gmap nat task :=
  match pool !! k with
  | Some t =>
      match code t with
      | i :: rest => <[k := exec_instr i rest t]> pool
      | [] => pool
      end
  | None => pool
  end.

(** A schedule names the task to run at each step. *)
Definition run (schedule : list nat) (pool : gmap nat task) : gmap nat task :=
  foldl (fun p k => step_task k p) pool schedule.

(** A task that runs to completion without being interleaved. *)
Fixpoint run_alone (fuel : nat) (t : task) : task :=
  match fuel, code t with
  | S n, i :: rest => run_alone n (exec_instr i rest t)
  | _, _ => t
  end.

(** The body of a scope that only looks at the current tenant and waits. *)
Definition observer (a : action) : bool :=
  match a with
  | Observe | Await => true
  | _ => false
  end.

Fixpoint observations (body : list action) : nat :=
  match body with
  | [] => 0
  | Observe :: rest => S (observations rest)
  | _ :: rest => observations rest
  end.

(** [with tenant_context(tenant_id): body], cut into steps. *)
Definition in_scope (tenant_id : string) (body : list action) : list instr :=
  (Enter tenant_id :: map Act body ++ [Leave])%list.

(** The same body as one piece of code for [tenant_context], returning what
    it observed. *)
Fixpoint body_program (body : list action) : M (list (option string)) :=
  match body with
  | [] => ret []
  | a :: rest =>
      do vs <- act a ;;
      do ws <- body_program rest ;;
      ret (vs ++ ws)%list
  end.

End Tasks.

Import Tasks.

(** * Definitions used in the statements *)

(** The catalogue as the specification tabulates it. *)
Definition catalogue (p : TenantPlan) : PlanLimits :=
  match p with
  | FREE => mkPlanLimits 3 1 1000 ["basic_reports"]
  | STARTER =>
      mkPlanLimits 10 10 10000 ["basic_reports"; "api_access"; "email_support"]
  | PROFESSIONAL =>
      mkPlanLimits 50 100 100000
        ["basic_reports"; "api_access"; "email_support";
         "advanced_analytics"; "integrations"]
  | ENTERPRISE =>
      mkPlanLimits (-1) (-1) (-1)
        ["basic_reports"; "api_access"; "email_support";
         "advanced_analytics"; "integrations"; "sso"; "audit_logs"; "sla"]
  end.

(** The exception of [require_tenant]. *)
Definition no_tenant : exn := ValueError "No tenant context set".

(** The headers of a scope, [[]] when it has none, and the value of an
    optional header, empty when there is none. *)
Definition headers_of (oh : option (list (string * string))) : list (string * string) :=
  match oh with Some l => l | None => [] end.

Definition text_of (o : option string) : string :=
  match o with Some v => v | None => EmptyString end.

(** An application that needs a tenant. *)
Definition echo_app : App := fun _ => exec require_tenant ;; ret tt.

(** How often the schedule picks task [k]. *)
Fixpoint turns (k : nat) (schedule : list nat) : nat :=
  match schedule with
  | [] => 0
  | j :: rest => if decide (j = k) then S (turns k rest) else turns k rest
  end.

(** Three tasks: two requests of different tenants, and a third task that
    overwrites its own current tenant. *)
Definition three_tasks : gmap nat task :=
  <[2%nat := spawn None [Act (Set_tenant (Some "mallory")); Act Observe]]>
  (<[1%nat := spawn None (in_scope "globex" [Observe; Await; Observe])]>
  (<[0%nat := spawn None (in_scope "acme" [Observe; Await; Observe])]> ∅)).

Definition interleaved : list nat :=
  [0; 1; 2; 1; 0; 2; 0; 1; 1; 0; 1; 0]%nat.

(** The plan tiers in the order of the enumeration. *)
Definition tier (p : TenantPlan) : nat :=
  match p with
  | FREE => 0
  | STARTER => 1
  | PROFESSIONAL => 2
  | ENTERPRISE => 3
  end.

(** A row passes a query when it passes each of its filters. *)
Definition keeps (q : query) (r : row) : bool :=
  forallb (fun p => holds p r) q.

(** The headers of a scope as [__call__] reads them. *)
Definition headers_dict (scope : Scope) : gmap string string :=
  dict (headers_of (scope_headers scope)).

(** A task whose scope writes the tenant by hand, beside a task that
    overwrites its own. *)
Definition raw_writer_pool : gmap nat task :=
  <[3%nat := spawn None
       (in_scope "acme" [Observe; Set_tenant (Some "globex"); Await; Observe])]>
  (<[0%nat := spawn (Some (Some "initech"))
       [Act (Set_tenant None); Act Observe; Act (Set_tenant (Some "acme"))]]> ∅).

(** * Properties *)

(** ** The plan catalogue *)

Lemma PLAN_LIMITS_lookup (p : TenantPlan) : PLAN_LIMITS !! p = Some (catalogue p).
Proof. destruct p; vm_compute; reflexivity. Qed.

Lemma limits_catalogue (t : Tenant) : limits t = Some (catalogue (plan t)).
Proof. unfold limits. apply PLAN_LIMITS_lookup. Qed.

Lemma can_add_user_unfold (t : Tenant) (n : Z) :
  can_add_user t n =
  Some ((max_users (catalogue (plan t)) =? -1)%Z
        || (n <? max_users (catalogue (plan t)))%Z).
Proof. unfold can_add_user. rewrite limits_catalogue. reflexivity. Qed.

Lemma has_feature_unfold (t : Tenant) (f : string) :
  has_feature t f = Some (bool_decide (f ∈ features (catalogue (plan t)))).
Proof. unfold has_feature. rewrite limits_catalogue. reflexivity. Qed.

(** C6.  The lookup [PLAN_LIMITS[plan]] succeeds for each of the four plan
    tiers and yields exactly the tabulated limits and features; the
    dictionary has no other entry; the professional features are the starter
    ones followed by advanced_analytics and integrations, the enterprise
    ones add sso, audit_logs and sla; and the limits of a tenant are a
    function of its plan alone, so that asking twice gives the same answer. *)
Theorem plan_catalog_total_and_fixed :
  (forall p : TenantPlan, exists l, PLAN_LIMITS !! p = Some l)
  /\ size PLAN_LIMITS = 4%nat
  /\ (forall t : Tenant, limits t = Some (catalogue (plan t)))
  /\ PLAN_LIMITS !! FREE = Some (mkPlanLimits 3 1 1000 ["basic_reports"])
  /\ PLAN_LIMITS !! STARTER =
       Some (mkPlanLimits 10 10 10000
               ["basic_reports"; "api_access"; "email_support"])
  /\ PLAN_LIMITS !! PROFESSIONAL =
       Some (mkPlanLimits 50 100 100000
               (["basic_reports"; "api_access"; "email_support"]
                ++ ["advanced_analytics"; "integrations"])%list)
  /\ PLAN_LIMITS !! ENTERPRISE =
       Some (mkPlanLimits (-1) (-1) (-1)
               ((["basic_reports"; "api_access"; "email_support"]
                 ++ ["advanced_analytics"; "integrations"])
                ++ ["sso"; "audit_logs"; "sla"])%list).
Proof.
  split; [intros p; exists (catalogue p); apply PLAN_LIMITS_lookup|].
  split; [vm_compute; reflexivity|].
  split; [exact limits_catalogue|].
  repeat split; vm_compute; reflexivity.
Qed.

(** C7.  For a count that is not negative, [can_add_user] returns
    [max_users == -1 or current_count < max_users] on the limits of the
    tenant's plan: always true on the enterprise plan, and on the free plan
    true for 0, 1 and 2 and false from 3 on. *)
Theorem can_add_user_nonnegative (t : Tenant) (current_count : Z)
    (Hcount : (0 <= current_count)%Z) :
  (exists l, limits t = Some l
     /\ can_add_user t current_count =
        Some ((max_users l =? -1)%Z || (current_count <? max_users l)%Z))
  /\ (plan t = ENTERPRISE -> can_add_user t current_count = Some true)
  /\ (plan t = FREE ->
      can_add_user t current_count = Some (bool_decide (current_count < 3)%Z)
      /\ (current_count = 0%Z \/ current_count = 1%Z \/ current_count = 2%Z ->
          can_add_user t current_count = Some true)
      /\ ((3 <= current_count)%Z -> can_add_user t current_count = Some false)).
Proof.
  split.
  { exists (catalogue (plan t)). split; [apply limits_catalogue|].
    apply can_add_user_unfold. }
  split.
  { intros Hp. rewrite can_add_user_unfold, Hp. reflexivity. }
  intros Hp. rewrite can_add_user_unfold, Hp. cbn [catalogue max_users].
  replace (3 =? -1)%Z with false by reflexivity. cbn [orb].
  split; [|split].
  - f_equal. case_bool_decide; [apply Z.ltb_lt | apply Z.ltb_ge]; lia.
  - intros H. f_equal. apply Z.ltb_lt. lia.
  - intros H. f_equal. apply Z.ltb_ge. lia.
Qed.

Lemma can_add_user_nonnegative_witness :
  (0 <= 2)%Z
  /\ can_add_user (mkTenant "t-1" "Acme" "acme" FREE true 0 ∅) 2 = Some true
  /\ can_add_user (mkTenant "t-1" "Acme" "acme" FREE true 0 ∅) 3 = Some false
  /\ can_add_user (mkTenant "t-2" "Big" "big" ENTERPRISE true 0 ∅) 1000000 = Some true.
Proof.
  split; [lia|].
  split.
  { destruct (can_add_user_nonnegative
                (mkTenant "t-1" "Acme" "acme" FREE true 0 ∅) 2) as (_ & _ & Hfree);
      [lia|].
    destruct (Hfree eq_refl) as (_ & Hsmall & _). apply Hsmall. lia. }
  split.
  { destruct (can_add_user_nonnegative
                (mkTenant "t-1" "Acme" "acme" FREE true 0 ∅) 3) as (_ & _ & Hfree);
      [lia|].
    destruct (Hfree eq_refl) as (_ & _ & Hfull). apply Hfull. lia. }
  destruct (can_add_user_nonnegative
              (mkTenant "t-2" "Big" "big" ENTERPRISE true 0 ∅) 1000000)
    as (_ & Hent & _); [lia|].
  apply Hent. reflexivity.
Defined.

(** C8.  [has_feature] returns true exactly when the feature is a member of
    the feature list of the tenant's plan limits; a free tenant does not
    have "sso", an enterprise tenant has it. *)
Theorem has_feature_membership (t : Tenant) (feature : string) :
  (exists l, limits t = Some l
     /\ (has_feature t feature = Some true <-> feature ∈ features l)
     /\ (has_feature t feature = Some false <-> feature ∉ features l))
  /\ (forall i n s a c st,
        has_feature (mkTenant i n s FREE a c st) "sso" = Some false)
  /\ (forall i n s a c st,
        has_feature (mkTenant i n s ENTERPRISE a c st) "sso" = Some true).
Proof.
  split.
  { exists (catalogue (plan t)). split; [apply limits_catalogue|].
    rewrite has_feature_unfold.
    split; (split; [intros [= H] | intros H; f_equal]).
    - apply bool_decide_eq_true in H. exact H.
    - apply bool_decide_eq_true. exact H.
    - apply bool_decide_eq_false in H. exact H.
    - apply bool_decide_eq_false. exact H. }
  split; intros; vm_compute; reflexivity.
Qed.

(** C10.  On a bounded plan (its [max_users] is not [-1]) [can_add_user]
    returns true for every negative count: the count is only compared with
    the limit, it is neither rejected nor answered with false. *)
Theorem can_add_user_negative_count (t : Tenant) (l : PlanLimits) (current_count : Z)
    (Hlimits : limits t = Some l)
    (Hbounded : max_users l <> (-1)%Z)
    (Hnegative : (current_count < 0)%Z) :
  can_add_user t current_count = Some true.
Proof.
  rewrite limits_catalogue in Hlimits. injection Hlimits as <-.
  rewrite can_add_user_unfold.
  destruct (plan t); cbn [catalogue max_users] in *;
    try congruence; f_equal; apply orb_true_iff; right; apply Z.ltb_lt; lia.
Qed.

Lemma can_add_user_negative_count_witness :
  can_add_user (mkTenant "t-1" "Acme" "acme" FREE true 0 ∅) (-5) = Some true.
Proof.
  apply (can_add_user_negative_count
           (mkTenant "t-1" "Acme" "acme" FREE true 0 ∅)
           (mkPlanLimits 3 1 1000 ["basic_reports"]) (-5));
    [vm_compute; reflexivity | discriminate | lia].
Defined.

(** ** The context variable and its scopes *)

Lemma get_current_tenant_run (c : Context) :
  get_current_tenant c = (Returned (var_get c), c).
Proof. reflexivity. Qed.

Lemma set_current_tenant_run (v : option string) (c : Context) :
  set_current_tenant v c = (Returned tt, Some v).
Proof. reflexivity. Qed.

(** A scope runs its body on the context in which the identifier is current
    and then writes back the value it found on entry. *)
Lemma tenant_context_run {A} (tenant_id : string) (body : string -> M A) (c : Context) :
  tenant_context tenant_id body c =
  (result (body tenant_id (Some (Some tenant_id))), Some (var_get c)).
Proof.
  unfold tenant_context, bind, try_finally, result.
  rewrite get_current_tenant_run, set_current_tenant_run.
  destruct (body tenant_id (Some (Some tenant_id))) as [r c'].
  rewrite set_current_tenant_run. reflexivity.
Qed.

Lemma nested_cons_run {A} (t : string) (rest : list string) (inner : M A)
    (c : Context) :
  nested (t :: rest) inner c =
  (result (nested rest inner (Some (Some t))), Some (var_get c)).
Proof. exact (tenant_context_run t (fun _ => nested rest inner) c). Qed.

Lemma require_tenant_run (c : Context) :
  require_tenant c =
  (match var_get c with
   | Some (String a s) => Returned (String a s)
   | _ => Raised no_tenant
   end, c).
Proof.
  unfold require_tenant, bind. rewrite get_current_tenant_run.
  destruct (var_get c) as [[|a s]|]; reflexivity.
Qed.

Lemma get_tenant_filter_run (cls : EntityClass) (c : Context) :
  get_tenant_filter cls c =
  (match var_get c with
   | Some (String a s) => Returned (ColumnEq (organization_id cls) (String a s))
   | _ => Raised no_tenant
   end, c).
Proof.
  unfold get_tenant_filter, bind. rewrite require_tenant_run.
  destruct (var_get c) as [[|a s]|]; reflexivity.
Qed.

Lemma truthy_false (v : option string) :
  truthy v = false <-> v = None \/ v = Some "".
Proof.
  destruct v as [[|a s]|]; cbn; split; intros H; try discriminate; auto.
  destruct H as [H|H]; discriminate.
Qed.

(** C1, as the code has it.  [require_tenant] raises exactly when the
    current value is absent or the empty string, and otherwise returns the
    current value, leaving the context as it was.  So inside a scope entered
    with an identifier it returns the identifier when that is not empty and
    raises when it is empty. *)
Theorem require_tenant_raises_iff_falsy (c : Context) :
  (result (require_tenant c) = Raised no_tenant
     <-> var_get c = None \/ var_get c = Some "")
  /\ (forall e, result (require_tenant c) = Raised e -> e = no_tenant)
  /\ (forall s, result (require_tenant c) = Returned s
        <-> var_get c = Some s /\ s <> "")
  /\ final (require_tenant c) = c
  /\ (forall tenant_id,
        result (tenant_context tenant_id (fun _ => require_tenant) c) =
        if String.eqb tenant_id "" then Raised no_tenant else Returned tenant_id).
Proof.
  rewrite require_tenant_run. unfold result, final. cbn [fst snd].
  split; [|split; [|split; [|split]]].
  - destruct (var_get c) as [[|a s]|]; split; intros H;
      try discriminate; auto; destruct H as [H|H]; discriminate.
  - intros e. destruct (var_get c) as [[|a s]|]; intros [= <-]; reflexivity.
  - intros s. destruct (var_get c) as [[|a s0]|]; split.
    + discriminate.
    + intros [[= <-] Hne]. congruence.
    + intros [= <-]. split; [reflexivity | discriminate].
    + intros [[= <-] _]. reflexivity.
    + discriminate.
    + intros [H _]. discriminate H.
  - reflexivity.
  - intros tenant_id. rewrite tenant_context_run, require_tenant_run.
    destruct tenant_id as [|a s]; reflexivity.
Qed.

(** C1, as the claim words it, fails: in a scope entered with the empty
    identifier a scope is active, yet [require_tenant] raises instead of
    returning the empty identifier. *)
Lemma require_tenant_empty_scope_raises :
  result (tenant_context "" (fun _ => require_tenant) None) = Raised no_tenant
  /\ result (tenant_context "" (fun _ => get_current_tenant) None) = Returned (Some "")
  /\ result (tenant_context "" (fun _ => require_tenant) None) <> Returned "".
Proof. repeat split. discriminate. Qed.

(** C2.  Whatever the body of a scope does (return, raise, open further
    scopes, call [set_current_tenant]), on exit the current tenant is the
    one that was current when the scope was entered, and the body's outcome,
    result or exception, is the outcome of the [with] statement.  The body
    starts with the scope's identifier as the current tenant.  For scopes
    nested to any depth the same holds of the whole nest, and the innermost
    identifier is the one visible inside. *)
Theorem tenant_context_restores_previous {A} (tenant_id : string)
    (body : string -> M A) (c : Context) :
  var_get (final (tenant_context tenant_id body c)) = var_get c
  /\ result (tenant_context tenant_id body c) =
     result (body tenant_id (final (set_current_tenant (Some tenant_id) c)))
  /\ (forall e, result (body tenant_id (Some (Some tenant_id))) = Raised e ->
        tenant_context tenant_id body c = (Raised e, Some (var_get c)))
  /\ result (tenant_context tenant_id (fun _ => get_current_tenant) c) =
     Returned (Some tenant_id)
  /\ (forall (outer : list string) (inner : M A),
        var_get (final (nested (outer ++ [tenant_id]) inner c)) = var_get c)
  /\ (forall (outer : list string),
        result (nested (outer ++ [tenant_id]) get_current_tenant c) =
        Returned (Some tenant_id)).
Proof.
  split; [rewrite tenant_context_run; reflexivity|].
  split; [rewrite tenant_context_run; reflexivity|].
  split.
  { intros e He. rewrite tenant_context_run, He. reflexivity. }
  split; [rewrite tenant_context_run; reflexivity|].
  split.
  - intros outer inner. destruct outer as [|t outer];
      [rewrite app_nil_l | rewrite <- app_comm_cons];
      rewrite nested_cons_run; reflexivity.
  - intros outer. revert c. induction outer as [|t outer IH]; intros c;
      [rewrite app_nil_l | rewrite <- app_comm_cons];
      rewrite nested_cons_run; [reflexivity|].
    cbn [result fst]. apply IH.
Qed.

(** C4.  With a scope for "acme" entered from a fresh context,
    [get_tenant_filter] returns the predicate [organization_id == "acme"] of
    the entity class, which keeps exactly the rows whose tenant column is
    "acme"; once the scope is left [get_current_tenant] returns [None]
    again; and where no tenant is current the call raises. *)
Theorem get_tenant_filter_in_scope (cls : EntityClass) :
  result (tenant_context "acme" (fun _ => get_tenant_filter cls) None) =
    Returned (ColumnEq (organization_id cls) "acme")
  /\ (forall r : row,
        holds (ColumnEq (organization_id cls) "acme") r = true
        <-> r (organization_id cls) = Some "acme")
  /\ result (get_tenant_filter cls None) = Raised no_tenant
  /\ (forall c, var_get c = None ->
        result (get_tenant_filter cls c) = Raised no_tenant)
  /\ result ((exec tenant_context "acme" (fun _ => get_tenant_filter cls) ;;
              get_current_tenant) None) = Returned None
  /\ result ((exec tenant_context "acme" (fun _ => get_tenant_filter cls) ;;
              get_tenant_filter cls) None) = Raised no_tenant
  /\ (forall q, result (tenant_context "acme" (fun _ => for_tenant cls q) None) =
        Returned (q ++ [ColumnEq (organization_id cls) "acme"])%list).
Proof.
  split; [reflexivity|].
  split.
  { intros r. unfold holds. apply bool_decide_eq_true. }
  split; [reflexivity|].
  split.
  { intros c Hc. rewrite get_tenant_filter_run, Hc. reflexivity. }
  repeat split.
Qed.

(** ** The surface of the module *)

(** C9, as the code has it.  Every operation of the module on the slot other
    than [set_current_tenant] leaves the current tenant as it found it,
    whatever the body of a scope does; [set_current_tenant] is public as
    well and overwrites the current tenant with its argument, with nothing
    to restore it. *)
Theorem operations_on_current_tenant {A} (op : Api.operation A) (c : Context) :
  match op with
  | Api.Set_current_tenant v => var_get (Api.effect op c) = v
  | _ => Api.scoped op = true /\ var_get (Api.effect op c) = var_get c
  end.
Proof.
  destruct op; cbn [Api.scoped Api.effect]; try split; try reflexivity.
  - rewrite tenant_context_run. reflexivity.
  - rewrite require_tenant_run. reflexivity.
  - rewrite get_tenant_filter_run. reflexivity.
  - unfold for_tenant, bind. rewrite get_tenant_filter_run.
    destruct (var_get c) as [[|a s]|] eqn:E; cbn; exact E.
Qed.

(** C9, as the claim words it, fails: [set_current_tenant] is an operation
    of the module, and a call of it changes the current tenant, also in the
    middle of a scope, whose identifier is then no longer the current one. *)
Lemma set_current_tenant_bypasses_scopes :
  ~ (forall (op : Api.operation unit) (c : Context),
       var_get (Api.effect op c) = var_get c)
  /\ var_get (Api.effect (Api.Set_current_tenant (A := unit) (Some "other")) None)
     = Some "other"
  /\ result (tenant_context "acme"
               (fun _ => exec set_current_tenant (Some "other") ;;
                         get_current_tenant) None)
     = Returned (Some "other").
Proof.
  split; [|split; reflexivity].
  intros H. specialize (H (Api.Set_current_tenant (Some "other")) None).
  discriminate H.
Qed.

(** ** Tenant resolution *)

Lemma dict_lookup_ci (name : string) (hs : list (string * string))
    (m : gmap string string) :
  asgi_names hs ->
  foldl (fun m kv => <[fst kv := snd kv]> m) m hs !! lower name =
  match header_ci name hs with
  | Some v => Some v
  | None => m !! lower name
  end.
Proof.
  intros Hasgi. revert m.
  induction Hasgi as [|[k v] rest Hk Hrest IH]; intros m; [reflexivity|].
  cbn [foldl header_ci fst snd] in *. rewrite IH.
  destruct (header_ci name rest) as [v'|]; [reflexivity|].
  unfold same_name. rewrite Hk.
  destruct (String.eqb_spec k (lower name)) as [->|Hne].
  - apply lookup_insert_eq.
  - apply lookup_insert_ne. exact Hne.
Qed.

Lemma dict_get_ci (name : string) (hs : list (string * string)) :
  asgi_names hs ->
  dict_get (dict hs) (lower name) "" =
  match header_ci name hs with Some v => v | None => "" end.
Proof.
  intros Hasgi. unfold dict_get, dict. rewrite dict_lookup_ci by exact Hasgi.
  destruct (header_ci name hs); [reflexivity|].
  rewrite lookup_empty. reflexivity.
Qed.

Lemma split_first_label (host : string) :
  hd EmptyString (split "." host) = before_dot host.
Proof.
  induction host as [|a r IH]; [reflexivity|].
  cbn [split before_dot]. destruct (Ascii.eqb a "."); [reflexivity|].
  destruct (split "." r) as [|h t]; cbn [hd] in *; congruence.
Qed.

Lemma contains_empty_false (host : string) :
  contains "." host = true -> is_empty host = false.
Proof. destruct host; [discriminate | reflexivity]. Qed.

(** C5, as the code has it.  For an HTTP scope whose header names arrive
    lower-cased and whose tenant header, and host when the tenant header is
    missing or empty, are UTF-8 text, and for a configured header name in
    ASCII: the value of the configured header, found whatever the case in
    which the name was configured, is the resolved tenant when it is not
    empty; otherwise the tenant is the first label of a host that contains a
    dot; otherwise it is empty.  The application then runs inside the scope
    of the resolved tenant; a scope that is not HTTP is handed to the
    application as it is. *)
Theorem tenant_resolution_precedence (a : App) (name : string)
    (oh : option (list (string * string)))
    (Hname : ascii_only name = true)
    (Hasgi : asgi_names (headers_of oh))
    (Hheader : valid_utf8 (text_of (header_ci name (headers_of oh))) = true)
    (Hhost : is_empty (text_of (header_ci name (headers_of oh))) = true ->
             valid_utf8 (text_of (header_ci "host" (headers_of oh))) = true) :
  let self := init a name in
  let scope := mkScope "http" oh in
  let header := text_of (header_ci name (headers_of oh)) in
  let host := text_of (header_ci "host" (headers_of oh)) in
  extract_tenant self scope = Returned (resolved name (headers_of oh))
  /\ (header <> "" -> extract_tenant self scope = Returned header)
  /\ (header = "" -> contains "." host = true ->
      extract_tenant self scope = Returned (before_dot host))
  /\ (header = "" -> contains "." host = false ->
      extract_tenant self scope = Returned "")
  /\ (forall name', lower name' = lower name ->
      extract_tenant (init a name') scope = extract_tenant self scope)
  /\ (forall c, call self scope c =
        tenant_context (resolved name (headers_of oh)) (fun _ => a scope) c)
  /\ (forall ty c, ty <> "http" ->
        call self (mkScope ty oh) c = a (mkScope ty oh) c).
Proof.
  intros self scope header host.
  assert (Hget : dict_get (dict (headers_of oh)) (header_name self) "" = header).
  { apply dict_get_ci. exact Hasgi. }
  assert (Hgeth : dict_get (dict (headers_of oh)) "host" "" = host).
  { apply (dict_get_ci "host"). exact Hasgi. }
  assert (Hx : extract_tenant self scope =
               if is_empty header
               then if contains "." host then Returned (before_dot host)
                    else Returned ""
               else Returned header).
  { unfold extract_tenant. fold (headers_of (scope_headers scope)).
    cbn [scope_headers scope]. rewrite Hget. unfold decode at 1.
    fold header in Hheader, Hhost. rewrite Hheader.
    destruct (is_empty header) eqn:He; [|reflexivity].
    rewrite Hgeth. unfold decode. fold host in Hhost. rewrite (Hhost eq_refl).
    destruct (contains "." host) eqn:Hc.
    - rewrite (contains_empty_false _ Hc). cbn [negb andb].
      rewrite split_first_label. reflexivity.
    - rewrite andb_false_r. destruct header; [reflexivity | discriminate]. }
  assert (Hr : extract_tenant self scope = Returned (resolved name (headers_of oh))).
  { rewrite Hx. unfold resolved, header, host, text_of.
    destruct (header_ci name (headers_of oh)) as [[|x v]|];
      cbn [is_empty]; try reflexivity;
      destruct (header_ci "host" (headers_of oh)) as [h|]; cbn;
      try destruct (contains "." h); reflexivity. }
  split; [exact Hr|].
  split. { intros Hne. rewrite Hx. destruct header; [congruence | reflexivity]. }
  split. { intros He Hc. rewrite Hx, He, Hc. reflexivity. }
  split. { intros He Hc. rewrite Hx, He, Hc. reflexivity. }
  split.
  { intros name' Hn. unfold extract_tenant, self, init, encode.
    cbn [header_name]. rewrite Hn. reflexivity. }
  split.
  { intros c. unfold call. cbn [scope_type scope]. cbn [String.eqb negb].
    replace (String.eqb "http" "http") with true by reflexivity. cbn [negb].
    unfold bind, lift. rewrite Hr. reflexivity. }
  intros ty c Hty. unfold call. cbn [scope_type].
  destruct (String.eqb_spec ty "http") as [->|_]; [congruence|reflexivity].
Qed.

(** Outside the theorem's assumptions: a tenant header that is not UTF-8
    makes [__call__] raise before any scope is entered, and a header name
    that reaches the middleware in upper case is not found. *)
Example undecodable_header_raises :
  call (init echo_app default_header_name)
    (mkScope "http" (Some [("x-tenant-id", String (ascii_of_nat 255) "")])) None
  = (Raised UnicodeDecodeError, None).
Proof. vm_compute. reflexivity. Qed.

Example upper_case_name_in_scope_is_missed :
  extract_tenant (init echo_app default_header_name)
    (mkScope "http" (Some [("X-Tenant-ID", "acme")]))
  = Returned "".
Proof. vm_compute. reflexivity. Qed.

(** A request without a tenant is served inside a scope of the empty
    identifier, where [require_tenant] raises. *)
Example request_without_tenant :
  call (init echo_app default_header_name)
    (mkScope "http" (Some [("host", "localhost")])) None
  = (Raised no_tenant, Some None).
Proof. vm_compute. reflexivity. Qed.

Lemma tenant_resolution_precedence_witness :
  extract_tenant (init echo_app default_header_name)
    (mkScope "http"
       (Some [("x-tenant-id", "acme"); ("host", "other.example.com")]))
  = Returned "acme"
  /\ extract_tenant (init echo_app default_header_name)
       (mkScope "http" (Some [("host", "acme.example.com")]))
     = Returned "acme"
  /\ extract_tenant (init echo_app default_header_name) (mkScope "http" (Some []))
     = Returned "".
Proof.
  split; [|split].
  - refine (proj1 (tenant_resolution_precedence echo_app default_header_name
      (Some [("x-tenant-id", "acme"); ("host", "other.example.com")]) _ _ _ _)).
    + reflexivity.
    + repeat constructor.
    + reflexivity.
    + intros _. reflexivity.
  - refine (proj1 (tenant_resolution_precedence echo_app default_header_name
      (Some [("host", "acme.example.com")]) _ _ _ _)).
    + reflexivity.
    + repeat constructor.
    + reflexivity.
    + intros _. reflexivity.
  - refine (proj1 (tenant_resolution_precedence echo_app default_header_name
      (Some []) _ _ _ _)).
    + reflexivity.
    + repeat constructor.
    + reflexivity.
    + intros _. reflexivity.
Defined.

(** C5, as the claim words it, fails: a tenant header whose value is not
    UTF-8 carries a non-empty value, yet that value is not resolved, the
    middleware raises [UnicodeDecodeError] and the application is not run;
    and a tenant header whose name reaches the middleware in upper case is
    not matched, the tenant then comes from the host. *)
Lemma tenant_header_not_utf8_is_not_resolved :
  header_ci default_header_name
    [("x-tenant-id", String (ascii_of_nat 255) ""); ("host", "acme.example.com")]
  = Some (String (ascii_of_nat 255) "")
  /\ extract_tenant (init echo_app default_header_name)
       (mkScope "http"
          (Some [("x-tenant-id", String (ascii_of_nat 255) "");
                 ("host", "acme.example.com")]))
     = Raised UnicodeDecodeError
  /\ extract_tenant (init echo_app default_header_name)
       (mkScope "http"
          (Some [("x-tenant-id", String (ascii_of_nat 255) "");
                 ("host", "acme.example.com")]))
     <> Returned (String (ascii_of_nat 255) "")
  /\ call (init echo_app default_header_name)
       (mkScope "http"
          (Some [("x-tenant-id", String (ascii_of_nat 255) "");
                 ("host", "acme.example.com")])) None
     = (Raised UnicodeDecodeError, None)
  /\ extract_tenant (init echo_app default_header_name)
       (mkScope "http"
          (Some [("X-Tenant-ID", "acme"); ("host", "other.example.com")]))
     = Returned "other".
Proof.
  split; [vm_compute; reflexivity|].
  split; [vm_compute; reflexivity|].
  split; [vm_compute; discriminate|].
  split; vm_compute; reflexivity.
Qed.

(** ** Isolation of concurrent tasks *)

Lemma run_alone_finished (n : nat) (t : task) :
  code t = [] -> run_alone n t = t.
Proof. intros H. destruct n; cbn [run_alone]; [|rewrite H]; reflexivity. Qed.

Lemma run_alone_S (n : nat) (t : task) :
  run_alone (S n) t = run_alone n (run_alone 1 t).
Proof.
  cbn [run_alone]. destruct (code t) as [|i rest] eqn:E; [|reflexivity].
  symmetry. apply run_alone_finished. exact E.
Qed.

(** A step of task [k] is a step of [k] alone and leaves every other task
    of the pool as it is. *)
Lemma step_task_lookup (k j : nat) (pool : gmap nat task) :
  step_task k pool !! j =
  if decide (k = j) then run_alone 1 <$> pool !! j else pool !! j.
Proof.
  unfold step_task. destruct (decide (k = j)) as [->|Hne].
  - destruct (pool !! j) as [t|] eqn:E; [|rewrite E; reflexivity].
    cbn [fmap option_fmap option_map run_alone].
    destruct (code t) as [|i rest]; [exact E|]. apply lookup_insert_eq.
  - destruct (pool !! k) as [t|]; [|reflexivity].
    destruct (code t) as [|i rest]; [reflexivity|].
    apply lookup_insert_ne. exact Hne.
Qed.

(** Under any schedule a task goes through the states it goes through when
    it runs alone: as many of its own steps as it was given turns. *)
Lemma run_lookup (schedule : list nat) (pool : gmap nat task) (k : nat) :
  run schedule pool !! k = run_alone (turns k schedule) <$> pool !! k.
Proof.
  revert pool. induction schedule as [|j rest IH]; intros pool.
  - cbn. destruct (pool !! k); reflexivity.
  - change (run (j :: rest) pool) with (run rest (step_task j pool)).
    rewrite IH, step_task_lookup. cbn [turns].
    destruct (decide (j = k)) as [->|Hne]; [|reflexivity].
    destruct (pool !! k) as [t|]; [|reflexivity].
    cbn [fmap option_fmap option_map].
    rewrite (run_alone_S (turns k rest)). reflexivity.
Qed.

Lemma act_run (a : action) (c : Context) :
  act a c =
  match a with
  | Observe => (Returned [var_get c], c)
  | Set_tenant v => (Returned [], Some v)
  | Await => (Returned [], c)
  end.
Proof. destruct a; reflexivity. Qed.

(** The two halves of a scope around a body are [tenant_context]. *)
Lemma tenant_context_enter_leave {A} (tenant_id : string)
    (body : string -> M A) (c : Context) :
  tenant_context tenant_id body c =
  (do previous <- enter tenant_id ;;
   try_finally (body tenant_id) (leave previous)) c.
Proof.
  unfold tenant_context, enter, leave, bind, ret.
  rewrite get_current_tenant_run, set_current_tenant_run. reflexivity.
Qed.

(** Between [Enter] and [Leave] the steps of a task add up to the body run
    in one piece, and [Leave] puts back the saved tenant. *)
Lemma scope_inside (previous : option string) (body : list action) :
  forall (n : nat) (log : list (option string)) (c : Context),
    let t := run_alone n
               {| context := c; saved := [previous];
                  code := (map Act body ++ [Leave])%list; seen := log |} in
    code t = [] ->
    exists vs c',
      body_program body c = (Returned vs, c')
      /\ seen t = (log ++ vs)%list
      /\ context t = final (leave previous c').
Proof.
  induction body as [|a body IH]; intros n log c.
  - destruct n as [|n]; cbn; [discriminate|].
    rewrite run_alone_finished by reflexivity. cbn. intros _.
    exists [], c. rewrite app_nil_r. auto.
  - destruct n as [|n]; [cbn; discriminate|].
    change (map Act (a :: body) ++ [Leave])%list
      with (Act a :: (map Act body ++ [Leave]))%list.
    cbn [run_alone code exec_instr context saved seen]. rewrite act_run.
    destruct a as [|v|]; cbn zeta; intros Hc;
      destruct (IH n _ _ Hc) as (vs & c' & Hp & Hs & Hx);
      cbn [body_program]; unfold bind; rewrite act_run, Hp.
    + exists (var_get c :: vs), c'. split; [reflexivity|].
      split; [rewrite Hs, <- app_assoc; reflexivity | exact Hx].
    + exists vs, c'. split; [reflexivity|].
      split; [rewrite Hs, app_nil_r; reflexivity | exact Hx].
    + exists vs, c'. split; [reflexivity|].
      split; [rewrite Hs, app_nil_r; reflexivity | exact Hx].
Qed.

(** Inside its scope, a task that only observes sees the scope's tenant. *)
Lemma observer_inside (tenant_id : string) (previous : option string)
    (body : list action) :
  forallb observer body = true ->
  forall (n : nat) (log : list (option string)),
    Forall (fun v => v = Some tenant_id) log ->
    Forall (fun v => v = Some tenant_id)
      (seen (run_alone n
               {| context := Some (Some tenant_id); saved := [previous];
                  code := (map Act body ++ [Leave])%list; seen := log |})).
Proof.
  induction body as [|a body IH]; intros Hbody n log Hlog.
  - destruct n as [|n]; cbn; [exact Hlog|].
    rewrite run_alone_finished by reflexivity. exact Hlog.
  - cbn [forallb] in Hbody. apply andb_true_iff in Hbody as [Ha Hbody].
    destruct n as [|n]; [exact Hlog|].
    change (map Act (a :: body) ++ [Leave])%list
      with (Act a :: (map Act body ++ [Leave]))%list.
    cbn [run_alone code exec_instr context saved seen]. rewrite act_run.
    destruct a as [|v|]; try discriminate Ha; apply (IH Hbody).
    + apply Forall_app. split; [exact Hlog | repeat constructor].
    + rewrite app_nil_r. exact Hlog.
Qed.

Lemma observer_program (tenant_id : string) (body : list action) :
  forallb observer body = true ->
  body_program body (Some (Some tenant_id)) =
  (Returned (replicate (observations body) (Some tenant_id)),
   Some (Some tenant_id)).
Proof.
  induction body as [|a body IH]; intros Hbody; [reflexivity|].
  cbn [forallb] in Hbody. apply andb_true_iff in Hbody as [Ha Hbody].
  cbn [body_program]. unfold bind. rewrite act_run.
  destruct a as [|v|]; try discriminate Ha; rewrite (IH Hbody); reflexivity.
Qed.

(** A task that runs a scope step by step ends with what [tenant_context]
    gives for the same body run in one piece. *)
Lemma scope_alone (tenant_id : string) (c : Context) (body : list action)
    (n : nat) :
  let t := run_alone n (spawn c (in_scope tenant_id body)) in
  code t = [] ->
  tenant_context tenant_id (fun _ => body_program body) c =
  (Returned (seen t), context t).
Proof.
  destruct n as [|n]; [cbn; discriminate|].
  unfold spawn, in_scope. cbn [run_alone code exec_instr context saved seen].
  unfold enter, bind, ret. rewrite get_current_tenant_run, set_current_tenant_run.
  cbn zeta. intros Hc.
  destruct (scope_inside (var_get c) body n [] (Some (Some tenant_id)) Hc)
    as (vs & c' & Hp & Hs & Hx).
  rewrite tenant_context_run, Hp, Hs, Hx. reflexivity.
Qed.

Lemma observer_alone (tenant_id : string) (c : Context) (body : list action)
    (n : nat) :
  forallb observer body = true ->
  Forall (fun v => v = Some tenant_id)
    (seen (run_alone n (spawn c (in_scope tenant_id body)))).
Proof.
  intros Hbody. destruct n as [|n]; [constructor|].
  unfold spawn, in_scope. cbn [run_alone code exec_instr context saved seen].
  unfold enter, bind, ret. rewrite get_current_tenant_run, set_current_tenant_run.
  apply observer_inside; [exact Hbody | constructor].
Qed.

Lemma exec_instr_code (i : instr) (rest : list instr) (t : task) :
  length (code (exec_instr i rest t)) <= length rest.
Proof.
  destruct i as [tid| |a]; cbn [exec_instr].
  - unfold enter, bind, ret.
    rewrite get_current_tenant_run, set_current_tenant_run. cbn. lia.
  - destruct (saved t); cbn; lia.
  - rewrite act_run. destruct a; cbn; lia.
Qed.

(** Given as many turns as it has instructions, a task finishes. *)
Lemma run_alone_completes (n : nat) (t : task) :
  length (code t) <= n -> code (run_alone n t) = [].
Proof.
  revert t. induction n as [|n IH]; intros t Hlen.
  - cbn [run_alone]. destruct (code t); [reflexivity | cbn in Hlen; lia].
  - cbn [run_alone]. destruct (code t) as [|i rest] eqn:E; [exact E|].
    apply IH. cbn [length] in Hlen.
    pose proof (exec_instr_code i rest t). lia.
Qed.

Lemma in_scope_length (tenant_id : string) (body : list action) :
  length (in_scope tenant_id body) = length body + 2.
Proof.
  unfold in_scope. cbn [length]. rewrite length_app, length_map.
  cbn [length]. lia.
Qed.

(** C3.  Two different tasks of a pool, each inside its own
    [tenant_context] with a different identifier and only calling
    [get_current_tenant] between suspension points: under every schedule, in
    presence of any other tasks running any code, every value that
    [get_current_tenant] has returned to either task is the one it returns
    inside that task's [tenant_context] run without interruption, which is
    the task's own identifier and not the other's.  Once a task has finished
    it has seen what [tenant_context] around its whole body returns and its
    context is the one that leaves, with the tenant it started from; and it
    has finished as soon as the schedule has given it a turn for each of its
    steps. *)
Theorem concurrent_tasks_are_isolated (pool : gmap nat task) (a b : nat)
    (idA idB : string) (bodyA bodyB : list action) (cA cB : Context)
    (schedule : list nat)
    (Htasks : a <> b) (Hids : idA <> idB)
    (HbodyA : forallb observer bodyA = true)
    (HbodyB : forallb observer bodyB = true)
    (HA : pool !! a = Some (spawn cA (in_scope idA bodyA)))
    (HB : pool !! b = Some (spawn cB (in_scope idB bodyB))) :
  exists ta tb,
    run schedule pool !! a = Some ta
    /\ run schedule pool !! b = Some tb
    /\ Forall (fun v =>
         result (tenant_context idA (fun _ => get_current_tenant) cA) = Returned v
         /\ v = Some idA /\ v <> Some idB) (seen ta)
    /\ Forall (fun v =>
         result (tenant_context idB (fun _ => get_current_tenant) cB) = Returned v
         /\ v = Some idB /\ v <> Some idA) (seen tb)
    /\ (code ta = [] ->
        tenant_context idA (fun _ => body_program bodyA) cA
          = (Returned (seen ta), context ta)
        /\ seen ta = replicate (observations bodyA) (Some idA)
        /\ var_get (context ta) = var_get cA)
    /\ (code tb = [] ->
        tenant_context idB (fun _ => body_program bodyB) cB
          = (Returned (seen tb), context tb)
        /\ seen tb = replicate (observations bodyB) (Some idB)
        /\ var_get (context tb) = var_get cB)
    /\ (length bodyA + 2 <= turns a schedule -> code ta = [])
    /\ (length bodyB + 2 <= turns b schedule -> code tb = []).
Proof.
  exists (run_alone (turns a schedule) (spawn cA (in_scope idA bodyA))),
         (run_alone (turns b schedule) (spawn cB (in_scope idB bodyB))).
  rewrite !run_lookup, HA, HB.
  assert (Hdone : forall tid c body n,
            forallb observer body = true ->
            code (run_alone n (spawn c (in_scope tid body))) = [] ->
            tenant_context tid (fun _ => body_program body) c
              = (Returned (seen (run_alone n (spawn c (in_scope tid body)))),
                 context (run_alone n (spawn c (in_scope tid body))))
            /\ seen (run_alone n (spawn c (in_scope tid body)))
               = replicate (observations body) (Some tid)
            /\ var_get (context (run_alone n (spawn c (in_scope tid body))))
               = var_get c).
  { intros tid c body n Hbody Hc. pose proof (scope_alone tid c body n Hc) as Hs.
    split; [exact Hs|]. rewrite tenant_context_run in Hs.
    rewrite observer_program in Hs by exact Hbody. cbn [result fst] in Hs.
    injection Hs as Hseen Hctx. rewrite <- Hseen, <- Hctx. auto. }
  split; [reflexivity|]. split; [reflexivity|].
  split.
  { eapply Forall_impl; [exact (observer_alone idA cA bodyA _ HbodyA)|].
    intros v ->. rewrite tenant_context_run. repeat split. congruence. }
  split.
  { eapply Forall_impl; [exact (observer_alone idB cB bodyB _ HbodyB)|].
    intros v ->. rewrite tenant_context_run. repeat split. congruence. }
  split; [apply Hdone; exact HbodyA|].
  split; [apply Hdone; exact HbodyB|].
  split; intros Hturns; apply run_alone_completes;
    unfold spawn; cbn [code]; rewrite in_scope_length; lia.
Qed.

Lemma concurrent_tasks_are_isolated_witness :
  exists ta tb,
    run interleaved three_tasks !! 0%nat = Some ta
    /\ run interleaved three_tasks !! 1%nat = Some tb
    /\ Forall (fun v =>
         result (tenant_context "acme" (fun _ => get_current_tenant) None) = Returned v
         /\ v = Some "acme" /\ v <> Some "globex") (seen ta)
    /\ Forall (fun v =>
         result (tenant_context "globex" (fun _ => get_current_tenant) None) = Returned v
         /\ v = Some "globex" /\ v <> Some "acme") (seen tb)
    /\ (code ta = [] ->
        tenant_context "acme" (fun _ => body_program [Observe; Await; Observe]) None
          = (Returned (seen ta), context ta)
        /\ seen ta = replicate (observations [Observe; Await; Observe]) (Some "acme")
        /\ var_get (context ta) = var_get None)
    /\ (code tb = [] ->
        tenant_context "globex" (fun _ => body_program [Observe; Await; Observe]) None
          = (Returned (seen tb), context tb)
        /\ seen tb = replicate (observations [Observe; Await; Observe]) (Some "globex")
        /\ var_get (context tb) = var_get None)
    /\ (length [Observe; Await; Observe] + 2 <= turns 0 interleaved -> code ta = [])
    /\ (length [Observe; Await; Observe] + 2 <= turns 1 interleaved -> code tb = []).
Proof.
  apply (concurrent_tasks_are_isolated three_tasks 0 1 "acme" "globex"
           [Observe; Await; Observe] [Observe; Await; Observe] None None
           interleaved).
  - lia.
  - discriminate.
  - reflexivity.
  - reflexivity.
  - vm_compute. reflexivity.
  - vm_compute. reflexivity.
Defined.

(** The run of the witness: each request saw its own tenant twice, and the
    write of the third task stayed in the third task. *)
Example interleaved_run :
  seen <$> run interleaved three_tasks !! 0%nat = Some [Some "acme"; Some "acme"]
  /\ seen <$> run interleaved three_tasks !! 1%nat
     = Some [Some "globex"; Some "globex"]
  /\ seen <$> run interleaved three_tasks !! 2%nat = Some [Some "mallory"].
Proof. vm_compute. repeat split. Qed.

(** * Further properties of the module *)

(** ** Plans *)

Lemma features_grow (p1 p2 : TenantPlan) (f : string) :
  tier p1 <= tier p2 ->
  f ∈ features (catalogue p1) -> f ∈ features (catalogue p2).
Proof.
  destruct p1, p2; cbn [tier catalogue features]; intros Ht Hf;
    try lia; try exact Hf;
    rewrite ?elem_of_cons in *; rewrite ?elem_of_nil in *; tauto.
Qed.

(** X1.  A feature that a tenant has stays available on every higher plan:
    the feature list of each tier contains that of the tiers below it. *)
Theorem has_feature_kept_on_upgrade (t1 t2 : Tenant) (feature : string)
    (Htier : tier (plan t1) <= tier (plan t2))
    (Hhas : has_feature t1 feature = Some true) :
  has_feature t2 feature = Some true.
Proof.
  rewrite has_feature_unfold in *. injection Hhas as Hhas. f_equal.
  apply bool_decide_eq_true. apply bool_decide_eq_true in Hhas.
  eapply features_grow; eassumption.
Qed.

Lemma has_feature_kept_on_upgrade_witness :
  has_feature (mkTenant "t-2" "Big" "big" PROFESSIONAL true 0 ∅) "api_access"
  = Some true.
Proof.
  apply (has_feature_kept_on_upgrade
           (mkTenant "t-1" "Acme" "acme" STARTER true 0 ∅)
           (mkTenant "t-2" "Big" "big" PROFESSIONAL true 0 ∅) "api_access").
  - cbn. lia.
  - vm_compute. reflexivity.
Defined.

(** X2.  If a tenant may add a user at some count, then so may a tenant of
    the same or a higher plan at the same or any lower count. *)
Theorem can_add_user_monotone (t1 t2 : Tenant) (n m : Z)
    (Htier : tier (plan t1) <= tier (plan t2))
    (Hcount : (m <= n)%Z)
    (Hcan : can_add_user t1 n = Some true) :
  can_add_user t2 m = Some true.
Proof.
  rewrite can_add_user_unfold in *. injection Hcan as Hcan. f_equal.
  apply orb_true_iff in Hcan.
  destruct (plan t1), (plan t2); cbn [tier catalogue max_users] in *;
    try lia; try reflexivity;
    destruct Hcan as [Hcan|Hcan]; try discriminate Hcan;
    apply Z.ltb_lt in Hcan; apply orb_true_iff; right; apply Z.ltb_lt; lia.
Qed.

Lemma can_add_user_monotone_witness :
  can_add_user (mkTenant "t-2" "Big" "big" STARTER true 0 ∅) 1 = Some true.
Proof.
  apply (can_add_user_monotone
           (mkTenant "t-1" "Acme" "acme" FREE true 0 ∅)
           (mkTenant "t-2" "Big" "big" STARTER true 0 ∅) 2 1).
  - cbn. lia.
  - lia.
  - vm_compute. reflexivity.
Defined.

(** X3.  Only the enterprise plan is unbounded: [can_add_user] is true at
    every count exactly for an enterprise tenant, and a tenant of any other
    plan is refused at the count equal to its [max_users] and admitted just
    below it. *)
Theorem can_add_user_unbounded_iff_enterprise (t : Tenant) :
  ((forall n : Z, can_add_user t n = Some true) <-> plan t = ENTERPRISE)
  /\ (plan t <> ENTERPRISE ->
      exists l, limits t = Some l
        /\ can_add_user t (max_users l) = Some false
        /\ can_add_user t (max_users l - 1) = Some true).
Proof.
  split.
  - split.
    + intros H. specialize (H 50%Z). rewrite can_add_user_unfold in H.
      destruct (plan t); cbn in H; try discriminate H. reflexivity.
    + intros Hp n. rewrite can_add_user_unfold, Hp. reflexivity.
  - intros Hp. exists (catalogue (plan t)). split; [apply limits_catalogue|].
    rewrite !can_add_user_unfold.
    destruct (plan t); try congruence; split; reflexivity.
Qed.

(** ** Scopes *)

(** X4.  Scopes are left in the reverse order of entry: once an inner scope
    has returned, the tenant of the enclosing scope is current again, and an
    exception of the inner body passes through both scopes, after which the
    tenant from before the outer scope is current. *)
Theorem inner_scope_gives_back_outer_tenant {A} (outer inner : string)
    (body : string -> M A) (c : Context) :
  let both :=
    tenant_context outer
      (fun _ => exec tenant_context inner body ;; get_current_tenant) in
  result (both c) =
    match result (body inner (Some (Some inner))) with
    | Returned _ => Returned (Some outer)
    | Raised e => Raised e
    end
  /\ var_get (final (both c)) = var_get c.
Proof.
  cbn zeta. rewrite tenant_context_run. split; [|reflexivity].
  unfold bind, result. cbn [fst]. rewrite tenant_context_run.
  unfold result. cbn [fst].
  destruct (body inner (Some (Some inner))) as [[a|e] c']; reflexivity.
Qed.

(** X5.  [require_tenant] looks at the innermost scope only: inside a scope
    of the empty identifier it raises, however many scopes with a tenant
    enclose it, and inside a scope of a non-empty identifier it returns that
    identifier, whatever encloses it. *)
Theorem require_tenant_sees_innermost_scope (outer : list string)
    (tenant_id : string) (c : Context) :
  result (nested (outer ++ [tenant_id]) require_tenant c) =
  if String.eqb tenant_id "" then Raised no_tenant else Returned tenant_id.
Proof.
  revert c. induction outer as [|t outer IH]; intros c.
  - rewrite app_nil_l, nested_cons_run. cbn [nested result fst].
    rewrite require_tenant_run. destruct tenant_id; reflexivity.
  - rewrite <- app_comm_cons, nested_cons_run. cbn [result fst]. apply IH.
Qed.

(** ** Queries *)

Lemma keeps_filter (q : query) (p : predicate) (r : row) :
  keeps (filter_ q p) r = keeps q r && holds p r.
Proof.
  unfold keeps, filter_. rewrite forallb_app. cbn [forallb].
  rewrite andb_true_r. reflexivity.
Qed.

(** X6.  Inside the scope of a tenant, [for_tenant] turns any query into one
    that keeps only rows of that tenant, and among those exactly the rows
    the given query kept; no row passes the queries built for two different
    tenants. *)
Theorem for_tenant_keeps_own_rows (cls : EntityClass) (q : query)
    (tenant_id : string) (c : Context) (Htenant : tenant_id <> "") :
  exists q',
    result (tenant_context tenant_id (fun _ => for_tenant cls q) c) = Returned q'
    /\ (forall r, keeps q' r = true <->
          keeps q r = true /\ r (organization_id cls) = Some tenant_id)
    /\ (forall other q2 c2 qo r,
          other <> tenant_id ->
          result (tenant_context other (fun _ => for_tenant cls q2) c2)
            = Returned qo ->
          keeps q' r = true -> keeps qo r = false).
Proof.
  exists (filter_ q (ColumnEq (organization_id cls) tenant_id)).
  assert (Hrun : forall tid q0 c0, tid <> "" ->
            result (tenant_context tid (fun _ => for_tenant cls q0) c0) =
            Returned (filter_ q0 (ColumnEq (organization_id cls) tid))).
  { intros tid q0 c0 Hne. rewrite tenant_context_run. cbn [result fst].
    unfold for_tenant, bind. rewrite get_tenant_filter_run. cbn [var_get].
    destruct tid; [congruence | reflexivity]. }
  assert (Hkeep : forall tid q0 r,
            keeps (filter_ q0 (ColumnEq (organization_id cls) tid)) r = true <->
            keeps q0 r = true /\ r (organization_id cls) = Some tid).
  { intros tid q0 r. rewrite keeps_filter, andb_true_iff. cbn [holds].
    rewrite bool_decide_eq_true. reflexivity. }
  split; [apply Hrun; exact Htenant|].
  split; [intros r; apply Hkeep|].
  intros other q2 c2 qo r Hne Hqo Hk.
  destruct (String.eqb_spec other "") as [->|Hoe].
  - rewrite tenant_context_run in Hqo. cbn in Hqo. discriminate Hqo.
  - rewrite (Hrun other q2 c2 Hoe) in Hqo. injection Hqo as <-.
    apply Hkeep in Hk. destruct Hk as [_ Hk].
    apply not_true_is_false. intros Hko. apply Hkeep in Hko.
    destruct Hko as [_ Hko]. congruence.
Qed.

Lemma for_tenant_keeps_own_rows_witness :
  exists q',
    result (tenant_context "acme"
              (fun _ => for_tenant (mkEntity "Order" (mkColumn "orders" "organization_id"))
                          []) None) = Returned q'
    /\ (forall r, keeps q' r = true <->
          keeps [] r = true
          /\ r (organization_id (mkEntity "Order" (mkColumn "orders" "organization_id")))
             = Some "acme")
    /\ (forall other q2 c2 qo r,
          other <> "acme" ->
          result (tenant_context other
                    (fun _ => for_tenant
                                (mkEntity "Order" (mkColumn "orders" "organization_id"))
                                q2) c2)
            = Returned qo ->
          keeps q' r = true -> keeps qo r = false).
Proof.
  apply (for_tenant_keeps_own_rows
           (mkEntity "Order" (mkColumn "orders" "organization_id")) [] "acme" None).
  discriminate.
Defined.

(** ** The middleware *)

Lemma extract_tenant_cases (self : TenantMiddleware) (scope : Scope) :
  extract_tenant self scope =
  let header := dict_get (headers_dict scope) (header_name self) "" in
  let host := dict_get (headers_dict scope) "host" "" in
  if valid_utf8 header then
    if is_empty header then
      if valid_utf8 host then
        if contains "." host then Returned (before_dot host) else Returned ""
      else Raised UnicodeDecodeError
    else Returned header
  else Raised UnicodeDecodeError.
Proof.
  unfold extract_tenant, headers_dict, headers_of, decode. cbn zeta.
  set (d := dict match scope_headers scope with Some l => l | None => [] end).
  destruct (valid_utf8 (dict_get d (header_name self) "")); [|reflexivity].
  destruct (dict_get d (header_name self) "") as [|x h] eqn:Eh;
    cbn [is_empty]; [|reflexivity].
  destruct (valid_utf8 (dict_get d "host" "")); [|reflexivity].
  destruct (contains "." (dict_get d "host" "")) eqn:Hc.
  - rewrite (contains_empty_false _ Hc). cbn [negb andb].
    rewrite split_first_label. reflexivity.
  - rewrite andb_false_r. reflexivity.
Qed.

Lemma call_http (self : TenantMiddleware)
    (oh : option (list (string * string))) (c : Context) :
  call self (mkScope "http" oh) c =
  match extract_tenant self (mkScope "http" oh) with
  | Returned tenant_id =>
      (result (app self (mkScope "http" oh) (Some (Some tenant_id))),
       Some (var_get c))
  | Raised e => (Raised e, c)
  end.
Proof.
  unfold call. cbn [scope_type].
  replace (String.eqb "http" "http") with true by reflexivity. cbn [negb].
  unfold bind, lift.
  destruct (extract_tenant self (mkScope "http" oh)) as [tid|e]; [|reflexivity].
  exact (tenant_context_run tid (fun _ => app self (mkScope "http" oh)) c).
Qed.

(** X7.  Serving an HTTP scope never changes the current tenant of the
    caller, whatever the headers hold and whatever the application does:
    when a tenant is resolved the application runs with it as the current
    tenant and the previous one is current again afterwards, also when the
    application raises; when resolution raises the application does not run
    and the context is untouched. *)
Theorem middleware_restores_current_tenant (self : TenantMiddleware)
    (oh : option (list (string * string))) (c : Context) :
  var_get (final (call self (mkScope "http" oh) c)) = var_get c
  /\ match extract_tenant self (mkScope "http" oh) with
     | Returned tenant_id =>
         call self (mkScope "http" oh) c =
         (result (app self (mkScope "http" oh) (Some (Some tenant_id))),
          Some (var_get c))
     | Raised e => call self (mkScope "http" oh) c = (Raised e, c)
     end.
Proof.
  rewrite call_http.
  destruct (extract_tenant self (mkScope "http" oh)) as [tid|e];
    split; reflexivity.
Qed.

(** X8.  A request for which no tenant is resolved is still served, inside
    the scope of the empty identifier: an application that starts with
    [require_tenant] gets [ValueError] there and none of its remaining code
    runs. *)
Theorem request_without_tenant_fails_require (name : string)
    (oh : option (list (string * string))) (rest : string -> M unit)
    (c : Context)
    (Hnone : extract_tenant
               (mkTenantMiddleware (fun _ => do t <- require_tenant ;; rest t) name)
               (mkScope "http" oh) = Returned "") :
  call (mkTenantMiddleware (fun _ => do t <- require_tenant ;; rest t) name)
       (mkScope "http" oh) c
  = (Raised no_tenant, Some (var_get c)).
Proof.
  rewrite call_http, Hnone. cbn [app]. unfold bind.
  rewrite require_tenant_run. reflexivity.
Qed.

Lemma request_without_tenant_fails_require_witness :
  call (mkTenantMiddleware
          (fun _ => do t <- require_tenant ;; set_current_tenant (Some t))
          "x-tenant-id")
       (mkScope "http" (Some [("host", "localhost:8000")])) (Some (Some "outer"))
  = (Raised no_tenant, Some (var_get (Some (Some "outer")))).
Proof.
  apply (request_without_tenant_fails_require "x-tenant-id"
           (Some [("host", "localhost:8000")])
           (fun t => set_current_tenant (Some t)) (Some (Some "outer"))).
  vm_compute. reflexivity.
Defined.

Lemma dict_snoc (hs : list (string * string)) (k v : string) :
  dict (hs ++ [(k, v)])%list = <[k := v]> (dict hs).
Proof. unfold dict. rewrite foldl_app. reflexivity. Qed.

(** X9.  Of several headers with the tenant header's name the last one
    counts: for a header name configured in ASCII, a non-empty textual value
    in a final tenant header is the resolved tenant, whatever headers come
    before it. *)
Theorem last_tenant_header_wins (a : App) (name v : string)
    (hs : list (string * string))
    (Hname : ascii_only name = true)
    (Htext : valid_utf8 v = true) (Hvalue : v <> "") :
  extract_tenant (init a name)
    (mkScope "http" (Some (hs ++ [(lower name, v)])%list)) = Returned v.
Proof.
  rewrite extract_tenant_cases. cbn zeta.
  unfold headers_dict, headers_of, init, encode.
  cbn [scope_headers header_name]. rewrite dict_snoc.
  assert (Hget : dict_get (<[lower name := v]> (dict hs)) (lower name) "" = v).
  { unfold dict_get. rewrite lookup_insert_eq. reflexivity. }
  rewrite Hget, Htext. destruct v; [congruence | reflexivity].
Qed.

Lemma last_tenant_header_wins_witness :
  extract_tenant (init echo_app "X-Tenant-ID")
    (mkScope "http"
       (Some ([("x-tenant-id", "acme"); ("host", "globex.example.com")]
              ++ [(lower "X-Tenant-ID", "initech")])%list))
  = Returned "initech".
Proof.
  apply (last_tenant_header_wins echo_app "X-Tenant-ID" "initech"
           [("x-tenant-id", "acme"); ("host", "globex.example.com")]).
  - reflexivity.
  - reflexivity.
  - discriminate.
Defined.

Lemma before_dot_prefix (host : string) :
  contains "." host = true ->
  exists rest, host = (before_dot host ++ String "." rest)%string.
Proof.
  induction host as [|x r IH]; cbn [contains before_dot]; [discriminate|].
  destruct (Ascii.eqb_spec x ".") as [->|Hne].
  - intros _. exists r. reflexivity.
  - intros Hc. destruct (IH Hc) as [rest Hrest]. exists rest.
    change (String x r = String x (before_dot r ++ String "." rest)%string).
    f_equal. exact Hrest.
Qed.

Lemma before_dot_no_dot (host : string) :
  contains "." (before_dot host) = false.
Proof.
  induction host as [|x r IH]; cbn [before_dot]; [reflexivity|].
  destruct (Ascii.eqb x ".") eqn:E; [reflexivity|].
  cbn [contains]. rewrite E. exact IH.
Qed.

(** X10.  When the tenant header is missing or empty and the host is text
    with a dot in it, the resolved tenant is the part of the host in front
    of its first dot: the host is that tenant, a dot and a remainder, and
    the tenant itself has no dot.  It is empty when the host starts with a
    dot. *)
Theorem tenant_from_host_is_first_label (self : TenantMiddleware)
    (scope : Scope)
    (Hheader : dict_get (headers_dict scope) (header_name self) "" = "")
    (Htext : valid_utf8 (dict_get (headers_dict scope) "host" "") = true)
    (Hdot : contains "." (dict_get (headers_dict scope) "host" "") = true) :
  exists tenant_id rest,
    extract_tenant self scope = Returned tenant_id
    /\ dict_get (headers_dict scope) "host" ""
       = (tenant_id ++ String "." rest)%string
    /\ contains "." tenant_id = false.
Proof.
  destruct (before_dot_prefix _ Hdot) as [rest Hrest].
  exists (before_dot (dict_get (headers_dict scope) "host" "")), rest.
  split; [|split; [exact Hrest | apply before_dot_no_dot]].
  rewrite extract_tenant_cases. cbn zeta. rewrite Hheader, Htext, Hdot.
  reflexivity.
Qed.

Lemma tenant_from_host_is_first_label_witness :
  exists tenant_id rest,
    extract_tenant (init echo_app "X-Tenant-ID")
      (mkScope "http" (Some [("host", "acme.eu.example.com"); ("x-tenant-id", "")]))
    = Returned tenant_id
    /\ dict_get
         (headers_dict
            (mkScope "http" (Some [("host", "acme.eu.example.com"); ("x-tenant-id", "")])))
         "host" ""
       = (tenant_id ++ String "." rest)%string
    /\ contains "." tenant_id = false.
Proof.
  apply (tenant_from_host_is_first_label (init echo_app "X-Tenant-ID")
           (mkScope "http" (Some [("host", "acme.eu.example.com"); ("x-tenant-id", "")])));
    vm_compute; reflexivity.
Defined.

(** X11.  Resolution raises nothing but [UnicodeDecodeError], and raises it
    exactly when the tenant header is not UTF-8, or is missing or empty
    while the host is not UTF-8.  A host that is not UTF-8 does no harm
    when the tenant header carries a tenant, since the host is not read
    then. *)
Theorem extract_tenant_raises_iff_undecodable (self : TenantMiddleware)
    (scope : Scope) :
  let header := dict_get (headers_dict scope) (header_name self) "" in
  let host := dict_get (headers_dict scope) "host" "" in
  (extract_tenant self scope = Raised UnicodeDecodeError
   <-> valid_utf8 header = false \/ (header = "" /\ valid_utf8 host = false))
  /\ (forall e, extract_tenant self scope = Raised e -> e = UnicodeDecodeError)
  /\ (valid_utf8 header = true -> header <> "" ->
      extract_tenant self scope = Returned header).
Proof.
  cbn zeta. rewrite extract_tenant_cases. cbn zeta.
  destruct (valid_utf8 (dict_get (headers_dict scope) (header_name self) ""))
    eqn:Hv.
  - destruct (dict_get (headers_dict scope) (header_name self) "") as [|x h];
      cbn [is_empty].
    + destruct (valid_utf8 (dict_get (headers_dict scope) "host" "")) eqn:Hh.
      * destruct (contains "." (dict_get (headers_dict scope) "host" ""));
          (split; [split; [discriminate | intros [H|[_ H]]; discriminate H]|]);
          (split; [intros e H; discriminate H | congruence]).
      * split; [split; auto|]. split; [intros e [= <-]; reflexivity | congruence].
    + split; [split; [discriminate | intros [H|[H _]]; discriminate H]|].
      split; [intros e H; discriminate H | reflexivity].
  - split; [split; auto|]. split; [intros e [= <-]; reflexivity | discriminate].
Qed.

Lemma ascii_only_valid (v : string) :
  ascii_only v = true -> valid_utf8 v = true.
Proof.
  unfold ascii_only. induction v as [|x r IH]; [reflexivity|].
  cbn [list_ascii_of_string forallb valid_utf8]. intros H.
  apply andb_true_iff in H as [Hx Hr]. cbn zeta. rewrite Hx. exact (IH Hr).
Qed.

Lemma foldl_insert_lookup (hs : list (string * string))
    (m : gmap string string) (k v : string) :
  foldl (fun m kv => <[fst kv := snd kv]> m) m hs !! k = Some v ->
  m !! k = Some v \/ (k, v) ∈ hs.
Proof.
  revert m. induction hs as [|[k' v'] rest IH]; intros m H; [left; exact H|].
  cbn [foldl fst snd] in H. destruct (IH _ H) as [Hm|Hin].
  - destruct (decide (k' = k)) as [->|Hne].
    + rewrite lookup_insert_eq in Hm. injection Hm as ->.
      right. apply elem_of_cons. left. reflexivity.
    + rewrite lookup_insert_ne in Hm by exact Hne. left. exact Hm.
  - right. apply elem_of_cons. right. exact Hin.
Qed.

Lemma dict_lookup_elem (hs : list (string * string)) (k v : string) :
  dict hs !! k = Some v -> (k, v) ∈ hs.
Proof.
  intros H. destruct (foldl_insert_lookup hs ∅ k v H) as [He|Hin]; [|exact Hin].
  rewrite lookup_empty in He. discriminate He.
Qed.

Lemma dict_get_elem (hs : list (string * string)) (k : string) :
  dict_get (dict hs) k "" = "" \/ (k, dict_get (dict hs) k "") ∈ hs.
Proof.
  unfold dict_get. destruct (dict hs !! k) as [v|] eqn:E; [|left; reflexivity].
  right. apply dict_lookup_elem. exact E.
Qed.

(** X12.  A request all of whose header values are ASCII never makes the
    resolution raise: some tenant, possibly the empty one, is resolved and
    the application is run inside its scope. *)
Theorem ascii_headers_always_resolve (self : TenantMiddleware)
    (oh : option (list (string * string))) (c : Context)
    (Hascii : Forall (fun kv => ascii_only (snd kv) = true) (headers_of oh)) :
  exists tenant_id,
    extract_tenant self (mkScope "http" oh) = Returned tenant_id
    /\ call self (mkScope "http" oh) c =
       (result (app self (mkScope "http" oh) (Some (Some tenant_id))),
        Some (var_get c)).
Proof.
  assert (Hvalid : forall k,
            valid_utf8 (dict_get (headers_dict (mkScope "http" oh)) k "") = true).
  { intros k. unfold headers_dict. cbn [scope_headers].
    destruct (dict_get_elem (headers_of oh) k) as [->|Hin]; [reflexivity|].
    apply ascii_only_valid. rewrite Forall_forall in Hascii.
    exact (Hascii _ Hin). }
  assert (Hx : exists tenant_id,
            extract_tenant self (mkScope "http" oh) = Returned tenant_id).
  { rewrite extract_tenant_cases. cbn zeta. rewrite !Hvalid.
    destruct (is_empty _); [|eauto]. destruct (contains _ _); eauto. }
  destruct Hx as [tid Hx]. exists tid. split; [exact Hx|].
  rewrite call_http, Hx. reflexivity.
Qed.

Lemma ascii_headers_always_resolve_witness :
  exists tenant_id,
    extract_tenant (init echo_app "X-Tenant-ID")
      (mkScope "http" (Some [("host", "localhost"); ("accept", "*/*")]))
    = Returned tenant_id
    /\ call (init echo_app "X-Tenant-ID")
         (mkScope "http" (Some [("host", "localhost"); ("accept", "*/*")])) None =
       (result (app (init echo_app "X-Tenant-ID")
                  (mkScope "http" (Some [("host", "localhost"); ("accept", "*/*")]))
                  (Some (Some tenant_id))),
        Some (var_get None)).
Proof.
  apply (ascii_headers_always_resolve (init echo_app "X-Tenant-ID")
           (Some [("host", "localhost"); ("accept", "*/*")]) None).
  repeat constructor.
Defined.

Lemma lower_char_idem (x : ascii) : lower_char (lower_char x) = lower_char x.
Proof. destruct x as [[] [] [] [] [] [] [] []]; reflexivity. Qed.

Lemma lower_idem (v : string) : lower (lower v) = lower v.
Proof.
  induction v as [|x r IH]; [reflexivity|].
  cbn [lower]. rewrite lower_char_idem, IH. reflexivity.
Qed.

Lemma dict_get_missing (hs : list (string * string)) (k : string) :
  Forall (fun kv => fst kv <> k) hs -> dict_get (dict hs) k "" = "".
Proof.
  intros Hk. destruct (dict_get_elem hs k) as [H|Hin]; [exact H|].
  rewrite Forall_forall in Hk. destruct (Hk _ Hin). reflexivity.
Qed.

(** X13.  The middleware looks headers up under lower-case names only, its
    own configured name included: from a header list in which every name
    has an upper-case letter neither the tenant header nor the host is
    found, and the empty tenant is resolved. *)
Theorem upper_case_header_names_are_missed (a : App) (name : string)
    (hs : list (string * string))
    (Hupper : Forall (fun kv => lower (fst kv) <> fst kv) hs) :
  extract_tenant (init a name) (mkScope "http" (Some hs)) = Returned "".
Proof.
  assert (Hmiss : forall k, lower k = k ->
            dict_get (headers_dict (mkScope "http" (Some hs))) k "" = "").
  { intros k Hk. unfold headers_dict, headers_of. cbn [scope_headers].
    apply dict_get_missing. eapply Forall_impl; [exact Hupper|].
    intros [k' v'] Hne. cbn [fst] in *. congruence. }
  rewrite extract_tenant_cases. cbn zeta.
  unfold init, encode. cbn [header_name].
  rewrite (Hmiss (lower name) (lower_idem name)).
  rewrite (Hmiss "host" eq_refl). reflexivity.
Qed.

Lemma upper_case_header_names_are_missed_witness :
  extract_tenant (init echo_app "X-Tenant-ID")
    (mkScope "http"
       (Some [("X-Tenant-ID", "acme"); ("Host", "globex.example.com")]))
  = Returned "".
Proof.
  apply (upper_case_header_names_are_missed echo_app "X-Tenant-ID"
           [("X-Tenant-ID", "acme"); ("Host", "globex.example.com")]).
  repeat constructor; cbn; discriminate.
Defined.

(** ** Tasks *)

(** X14.  A scope whose body also writes the current tenant by hand, run by
    a task step by step and interleaved in any way with other tasks running
    any code: once the task has had a turn for each of its steps it has
    finished, what [get_current_tenant] returned to it along the way is what
    [tenant_context] around the whole body returns when nothing interrupts
    it, and its context is the one that [tenant_context] leaves. *)
Theorem interleaved_scope_matches_tenant_context (pool : gmap nat task)
    (k : nat) (tenant_id : string) (body : list action) (c : Context)
    (schedule : list nat)
    (Htask : pool !! k = Some (spawn c (in_scope tenant_id body)))
    (Hturns : length body + 2 <= turns k schedule) :
  exists t,
    run schedule pool !! k = Some t
    /\ code t = []
    /\ tenant_context tenant_id (fun _ => body_program body) c
       = (Returned (seen t), context t)
    /\ var_get (context t) = var_get c.
Proof.
  exists (run_alone (turns k schedule) (spawn c (in_scope tenant_id body))).
  rewrite run_lookup, Htask.
  assert (Hc : code (run_alone (turns k schedule)
                       (spawn c (in_scope tenant_id body))) = []).
  { apply run_alone_completes. unfold spawn. cbn [code].
    rewrite in_scope_length. lia. }
  pose proof (scope_alone tenant_id c body _ Hc) as Hs.
  split; [reflexivity|]. split; [exact Hc|]. split; [exact Hs|].
  rewrite tenant_context_run in Hs. injection Hs as _ Hctx.
  rewrite <- Hctx. reflexivity.
Qed.

Lemma interleaved_scope_matches_tenant_context_witness :
  exists t,
    run [3; 0; 3; 3; 0; 0; 3; 3; 0; 3]%nat raw_writer_pool !! 3%nat = Some t
    /\ code t = []
    /\ tenant_context "acme"
         (fun _ => body_program
                     [Observe; Set_tenant (Some "globex"); Await; Observe]) None
       = (Returned (seen t), context t)
    /\ var_get (context t) = var_get None.
Proof.
  apply (interleaved_scope_matches_tenant_context raw_writer_pool 3 "acme"
           [Observe; Set_tenant (Some "globex"); Await; Observe] None
           [3; 0; 3; 3; 0; 0; 3; 3; 0; 3]%nat).
  - vm_compute. reflexivity.
  - vm_compute. lia.
Defined.

(** ** Raw writes and unscoped queries *)

(** X15.  A tenant written with [set_current_tenant] inside a scope is what
    [require_tenant] goes by for the rest of that scope, in place of the
    scope's own identifier: it is returned when it is a non-empty string and
    [ValueError] is raised when it is [None] or empty.  The write is
    discarded when the scope ends. *)
Theorem raw_write_inside_scope (tenant_id : string) (v : option string)
    (c : Context) :
  let scope_with_write :=
    tenant_context tenant_id
      (fun _ => exec set_current_tenant v ;; require_tenant) in
  result (scope_with_write c) =
    match v with
    | Some (String x s) => Returned (String x s)
    | _ => Raised no_tenant
    end
  /\ var_get (final (scope_with_write c)) = var_get c.
Proof.
  cbn zeta. rewrite tenant_context_run. split; [|reflexivity].
  unfold bind. rewrite set_current_tenant_run, require_tenant_run.
  destruct v as [[|x s]|]; reflexivity.
Qed.

(** X16.  [for_tenant] never hands back a query without the tenant filter:
    when it returns, the current tenant is a non-empty string and the result
    is the given query with the filter on that tenant added; otherwise it
    raises [ValueError] and no query is produced.  The context is the same
    afterwards in both cases. *)
Theorem for_tenant_never_unfiltered (cls : EntityClass) (q : query)
    (c : Context) :
  match result (for_tenant cls q c) with
  | Returned q' =>
      exists tenant_id,
        var_get c = Some tenant_id /\ tenant_id <> ""
        /\ q' = (q ++ [ColumnEq (organization_id cls) tenant_id])%list
        /\ (forall r, keeps q' r = true ->
              r (organization_id cls) = Some tenant_id)
  | Raised e =>
      e = no_tenant /\ (var_get c = None \/ var_get c = Some "")
  end
  /\ final (for_tenant cls q c) = c.
Proof.
  unfold for_tenant, bind. rewrite get_tenant_filter_run.
  destruct (var_get c) as [[|x s]|] eqn:E; cbn [result final fst snd ret].
  - split; [split; auto | reflexivity].
  - split; [|reflexivity]. exists (String x s).
    split; [reflexivity|]. split; [discriminate|]. split; [reflexivity|].
    intros r Hk. rewrite keeps_filter in Hk.
    apply andb_true_iff in Hk as [_ Hk]. cbn [holds] in Hk.
    apply bool_decide_eq_true in Hk. exact Hk.
  - split; [split; auto | reflexivity].
Qed.
